(** * E-Commerce API (main.py): a shallow embedding and its verified contract

    The state of the service is the process-wide database handle [db]
    (absent when no connection was configured), the collections behind it,
    and the process environment.  Handlers are embedded as functions from a
    [World] to an outcome and a new [World]; a Python exception is an outcome
    of its own, so that [try]/[except] and the framework's translation of
    exceptions into HTTP statuses can be written out. *)

Set Warnings "-register-all,-inexact-float".
From Stdlib Require Import ZArith NArith PrimFloat Ascii String.
From stdpp Require Import gmap strings list fin_maps pretty.

Local Open Scope Z_scope.

(* ===================================================================== *)
(** ** Python values *)
(* ===================================================================== *)

Module Py.

(** A storage identifier (bson ObjectId): twelve bytes, kept as their
    big-endian number. *)
Definition ObjectId := N.

(** The values a document can hold.  A [str] is held as the bytes of its
    UTF-8 encoding, one [ascii] each; its characters are counted and sliced
    by [str_len] and [str_take] below. *)
Inductive Value :=
| VNone
| VBool (b : bool)
| VInt (z : Z)
| VFloat (f : float)
| VStr (s : string)
| VOid (o : ObjectId)
| VList (l : list Value)
| VDict (m : gmap string Value).

(** A [dict] with string keys. *)
Abbreviation Doc := (gmap string Value).

Definition hex_digit (n : N) : ascii :=
  match n with
  | 0 => "0" | 1 => "1" | 2 => "2" | 3 => "3" | 4 => "4" | 5 => "5"
  | 6 => "6" | 7 => "7" | 8 => "8" | 9 => "9" | 10 => "a" | 11 => "b"
  | 12 => "c" | 13 => "d" | 14 => "e" | _ => "f"
  end%N%char.

(** [digits] lowercase hexadecimal digits of [v], most significant first. *)
Fixpoint hex_fixed (digits : nat) (v : N) : string :=
  match digits with
  | O => ""
  | S k => hex_fixed k (v / 16)%N +:+ String (hex_digit (v mod 16)%N) ""
  end.

(** [str(ObjectId)]: 24 hexadecimal digits. *)
Definition oid_str (o : ObjectId) : string := hex_fixed 24 o.

(** A continuation byte of UTF-8 (10xxxxxx): every other byte starts a
    character. *)
Definition is_continuation (c : ascii) : bool :=
  match c with
  | Ascii _ _ _ _ _ _ b6 b7 => b7 && negb b6
  end.

(** [len(s)]: the number of characters. *)
Fixpoint str_len (s : string) : nat :=
  match s with
  | "" => 0
  | String c r => (if is_continuation c then 0 else 1) + str_len r
  end.

(** [s[:n]]: the first [n] characters, each with all its bytes. *)
Fixpoint str_take (n : nat) (s : string) : string :=
  match s with
  | "" => ""
  | String c r =>
      if is_continuation c then String c (str_take n r)
      else match n with
           | O => ""
           | S k => String c (str_take k r)
           end
  end.

(** Where a slice may end: at the end of the string or before the first
    byte of a character, never inside one. *)
Definition at_boundary (s : string) : Prop :=
  match s with
  | "" => True
  | String c _ => is_continuation c = false
  end.

(** Truthiness of a [str] (an empty string is falsy). *)
Definition str_truthy (s : string) : bool :=
  match s with "" => false | _ => true end.

(** Truthiness of an optional [str], as in [if os.getenv(k)]. *)
Definition opt_str_truthy (o : option string) : bool :=
  match o with Some s => str_truthy s | None => false end.

Section Str.

(** Python's [repr] of floats and containers is not modelled; the service
    never applies [str] to one (storage identifiers are ObjectIds), and the
    conversion is taken as given. *)
Variable py_repr : Value -> string.

(** [str(v)] *)
Definition py_str (v : Value) : string :=
  match v with
  | VNone => "None"
  | VBool true => "True"
  | VBool false => "False"
  | VInt z => pretty z
  | VStr s => s
  | VOid o => oid_str o
  | VFloat _ | VList _ | VDict _ => py_repr v
  end.

End Str.

(** Exceptions: the framework's [HTTPException], and every other exception
    with the text [str(e)] gives for it. *)
Inductive exn :=
| HTTPException (status_code : Z) (detail : string)
| PyException (text : string).

(** [str(e)]; an [HTTPException] renders as its status, a colon and its
    detail. *)
Definition exn_str (e : exn) : string :=
  match e with
  | HTTPException c d => pretty c +:+ ": " +:+ d
  | PyException t => t
  end.

Inductive outcome (A : Type) :=
| Return (a : A)
| Raise (e : exn).
Arguments Return {A} a.
Arguments Raise {A} e.

(** The status the framework answers with: 200 for a handler that returns,
    the exception's own status for an [HTTPException], 500 for any other
    exception. *)
Definition http_status {A} (r : outcome A) : Z :=
  match r with
  | Return _ => 200
  | Raise (HTTPException c _) => c
  | Raise (PyException _) => 500
  end.

End Py.
Export Py.

(* ===================================================================== *)
(** ** Effects: state, exceptions, [try]/[except] *)
(* ===================================================================== *)

Module Eff.

(** A computation over a state [S] that returns or raises.  The state an
    exception leaves behind is kept: what was mutated before a [raise] stays
    mutated. *)
Definition M (S A : Type) : Type := S -> outcome A * S.

Definition ret {S A} (a : A) : M S A := fun s => (Return a, s).

Definition raise {S A} (e : exn) : M S A := fun s => (Raise e, s).

Definition bind {S A B} (m : M S A) (k : A -> M S B) : M S B :=
  fun s =>
    match m s with
    | (Return a, s') => k a s'
    | (Raise e, s') => (Raise e, s')
    end.

(** [try: m except Exception as e: h e] *)
Definition try_except {S A} (m : M S A) (h : exn -> M S A) : M S A :=
  fun s =>
    match m s with
    | (Return a, s') => (Return a, s')
    | (Raise e, s') => h e s'
    end.

Definition get {S} : M S S := fun s => (Return s, s).

Definition modify {S} (f : S -> S) : M S unit := fun s => (Return tt, f s).

(** A computation on the second component of a paired state. *)
Definition lift {L S A} (m : M S A) : M (L * S) A :=
  fun '(l, s) => let '(r, s') := m s in (r, (l, s')).

(** A list comprehension whose element expression may raise. *)
Fixpoint map_M {S A B} (f : A -> M S B) (l : list A) : M S (list B) :=
  match l with
  | [] => ret []
  | x :: r => bind (f x) (fun y => bind (map_M f r) (fun ys => ret (y :: ys)))
  end.

End Eff.
Export Eff.

Declare Scope eff_scope.
Delimit Scope eff_scope with eff.
Notation "x <- m ;; k" := (bind m (fun x => k))
  (at level 100, m at next level, right associativity) : eff_scope.
Notation "m ;;; k" := (bind m (fun _ => k))
  (at level 100, right associativity) : eff_scope.

(* ===================================================================== *)
(** ** The document store behind the handle *)
(* ===================================================================== *)

Module Mongo.

(** The database object the driver hands out.  [collections] maps a
    collection name to its documents in storage order; [next_oid] is the
    identifier the next inserted document receives (the storage layer
    assigns identity on insert; the service never hands it a record that
    carries one); [fault], when present, is the text of the error every
    round-trip to the server raises. *)
Record Database := {
  name : option string;
  collections : gmap string (list Doc);
  next_oid : ObjectId;
  fault : option string;
}.

(** [db[c]]: a collection that was never written to is empty. *)
Definition collection (c : string) (d : Database) : list Doc :=
  default [] (collections d !! c).

(** The wire format (BSON) holds integers of at most eight bytes. *)
Definition int64_range (z : Z) : bool :=
  (-9223372036854775808 <=? z) && (z <=? 9223372036854775807).

Definition int32_range (z : Z) : bool :=
  (-2147483648 <=? z) && (z <=? 2147483647).

(** Whether the driver's encoder accepts a value: every integer in it fits
    eight bytes. *)
Fixpoint bson_encodable (v : Value) : bool :=
  match v with
  | VInt z => int64_range z
  | VList l => forallb bson_encodable l
  | VDict m => map_fold (fun _ x acc => bson_encodable x && acc) true m
  | VNone | VBool _ | VFloat _ | VStr _ | VOid _ => true
  end.

(** The number of bytes of an encoded value.  A document is its length on
    four bytes, its elements (a type byte, the key and its terminator, the
    value) and a terminator; a list is the document of its indices; a string
    is its length on four bytes, its bytes and a terminator; an integer
    takes four bytes when it fits them, else eight. *)
Fixpoint bson_size (v : Value) : N :=
  match v with
  | VNone => 0
  | VBool _ => 1
  | VInt z => if int32_range z then 4 else 8
  | VFloat _ => 8
  | VStr s => 4 + N.of_nat (String.length s) + 1
  | VOid _ => 12
  | VList l =>
      4 + (fix elements (i : N) (l : list Value) : N :=
             match l with
             | [] => 0
             | x :: r =>
                 1 + N.of_nat (String.length (pretty i)) + 1 + bson_size x
                 + elements (N.succ i) r
             end) 0 l + 1
  | VDict m =>
      4 + map_fold (fun k x acc =>
                      1 + N.of_nat (String.length k) + 1 + bson_size x + acc)
                   0 m + 1
  end%N.

(** The largest document the server stores: 16 MiB. *)
Definition max_bson_size : N := 16777216.

(** The text of the exception an insert of [doc] ends in before anything
    is stored, if any: the encoder's [OverflowError] for an integer beyond
    eight bytes, and [DocumentTooLarge] for a document beyond the server's
    limit.  (The records this service inserts have fixed keys and depth;
    what else a store can refuse does not arise for them.) *)
Definition bson_refusal (doc : Doc) : option string :=
  if negb (bson_encodable (VDict doc))
  then Some "MongoDB can only handle up to 8-byte ints"
  else if (max_bson_size <? bson_size (VDict doc))%N
  then Some ("BSON document too large (" +:+ pretty (bson_size (VDict doc))
             +:+ " bytes) - the connected server supports BSON document"
             +:+ " sizes up to " +:+ pretty max_bson_size +:+ " bytes.")
  else None.

Fixpoint first_refusal (docs : list Doc) : option string :=
  match docs with
  | [] => None
  | doc :: r =>
      match bson_refusal doc with
      | Some t => Some t
      | None => first_refusal r
      end
  end.

(** A round-trip: raises the connection's fault when there is one. *)
Definition round_trip {A} (op : Database -> A * Database) : M Database A :=
  fun d =>
    match fault d with
    | Some t => (Raise (PyException t), d)
    | None => let '(a, d') := op d in (Return a, d')
    end.

(** [db[c].count_documents({})] *)
Definition count_documents (c : string) : M Database nat :=
  round_trip (fun d => (length (collection c d), d)).

(** [db[c].find({})] *)
Definition find (c : string) : M Database (list Doc) :=
  round_trip (fun d => (collection c d, d)).

(** The documents as stored: each tagged with the next free identifiers. *)
Fixpoint assign_ids (o : ObjectId) (docs : list Doc) : list Doc :=
  match docs with
  | [] => []
  | doc :: r => <["_id" := VOid o]> doc :: assign_ids (N.succ o) r
  end.

Definition store (c : string) (docs : list Doc) (d : Database) : Database :=
  {| name := name d;
     collections :=
       <[c := collection c d ++ assign_ids (next_oid d) docs]> (collections d);
     next_oid := (next_oid d + N.of_nat (length docs))%N;
     fault := fault d |}.

(** An insert: a server is selected first (the connection's fault, when
    there is one), the documents are then encoded under their identifiers,
    and only documents the wire format holds are stored.  The result is the
    first identifier assigned. *)
Definition write (c : string) (docs : list Doc) : M Database ObjectId :=
  fun d =>
    match fault d with
    | Some t => (Raise (PyException t), d)
    | None =>
        match first_refusal (assign_ids (next_oid d) docs) with
        | Some t => (Raise (PyException t), d)
        | None => (Return (next_oid d), store c docs d)
        end
    end.

(** [db[c].insert_many(docs)]; the driver refuses an empty list. *)
Definition insert_many (c : string) (docs : list Doc) : M Database unit :=
  match docs with
  | [] => raise (PyException "documents must be a non-empty list")
  | _ => bind (write c docs) (fun _ => ret tt)
  end.

(** [db[c].insert_one(doc).inserted_id] *)
Definition insert_one (c : string) (doc : Doc) : M Database ObjectId :=
  write c [doc].

(** [db.list_collection_names()] *)
Definition list_collection_names : M Database (list string) :=
  round_trip (fun d => (elements (dom (collections d)), d)).

End Mongo.
Export Mongo.

(* ===================================================================== *)
(** ** The process: database handle and environment *)
(* ===================================================================== *)

Record World := {
  db : option Database;
  environ : gmap string string;
}.

Definition set_db (d : Database) (w : World) : World :=
  {| db := Some d; environ := environ w |}.

(** A driver call through the global handle.  With no handle the subscript
    on [None] raises [TypeError]; every handler tests [db is None] first. *)
Definition db_call {A} (op : M Database A) : M World A :=
  fun w =>
    match db w with
    | Some d => let '(r, d') := op d in (r, set_db d' w)
    | None => (Raise (PyException "'NoneType' object is not subscriptable"), w)
    end.

(** [os.getenv(k)] *)
Definition getenv (k : string) : M World (option string) :=
  fun w => (Return (environ w !! k), w).

(* ===================================================================== *)
(** ** schemas.py *)
(* ===================================================================== *)

Module Schemas.

(** Modelled from the spec: schemas.py is not among the sources.  A price is
    a "non-negative number": an integer or a float. *)
Inductive number :=
| NInt (z : Z)
| NFloat (f : float).

(** Modelled from the spec: the Product schema of schemas.py (title,
    description, price, category, in_stock, image). *)
Record Product := {
  title : string;
  description : string;
  price : number;
  category : string;
  in_stock : bool;
  image : string;
}.

(** Modelled from the spec: the line item of the Order schema of schemas.py,
    a product reference and an integer quantity.  The schema itself does not
    constrain the quantity. *)
Record OrderItem := {
  product_id : string;
  quantity : Z;
}.

(** Modelled from the spec: the Order schema of schemas.py, an ordered
    sequence of line items. *)
Record Order := {
  items : list OrderItem;
}.

Definition as_str (o : option Value) : option string :=
  match o with Some (VStr s) => Some s | _ => None end.

Definition as_bool (o : option Value) : option bool :=
  match o with Some (VBool b) => Some b | _ => None end.

Definition as_number (o : option Value) : option number :=
  match o with
  | Some (VInt z) => Some (NInt z)
  | Some (VFloat f) => Some (NFloat f)
  | _ => None
  end.

Definition nonnegative (n : number) : bool :=
  match n with
  | NInt z => 0 <=? z
  | NFloat f => PrimFloat.leb 0 f
  end.

Definition number_value (n : number) : Value :=
  match n with
  | NInt z => VInt z
  | NFloat f => VFloat f
  end.

(** Modelled from the spec: structural and type validation of schemas.py
    (the constructor applied to a dict's items): every field present with its type, the price
    non-negative; keys outside the schema are dropped. *)
Definition Product_parse (p : Doc) : option Product :=
  t ← as_str (p !! "title");
  d ← as_str (p !! "description");
  n ← as_number (p !! "price");
  c ← as_str (p !! "category");
  s ← as_bool (p !! "in_stock");
  i ← as_str (p !! "image");
  if nonnegative n
  then Some {| title := t; description := d; price := n; category := c;
               in_stock := s; image := i |}
  else None.

(** Modelled from the spec: a payload schemas.py rejects raises its
    ValidationError. *)
Definition Product_new (p : Doc) : outcome Product :=
  match Product_parse p with
  | Some r => Return r
  | None => Raise (PyException "validation error for Product")
  end.

(** Modelled from the spec: [model_dump()] of a Product, the normalized
    record as a dict. *)
Definition Product_model_dump (r : Product) : Doc :=
  <["title" := VStr (title r)]>
  (<["description" := VStr (description r)]>
  (<["price" := number_value (price r)]>
  (<["category" := VStr (category r)]>
  (<["in_stock" := VBool (in_stock r)]>
  (<["image" := VStr (image r)]> ∅))))).

(** Modelled from the spec: [model_dump()] of a line item. *)
Definition OrderItem_model_dump (i : OrderItem) : Value :=
  VDict (<["product_id" := VStr (product_id i)]>
         (<["quantity" := VInt (quantity i)]> ∅)).

(** Modelled from the spec: [model_dump()] of an Order. *)
Definition Order_model_dump (o : Order) : Doc :=
  <["items" := VList (map OrderItem_model_dump (items o))]> ∅.

End Schemas.
Export Schemas.

(* ===================================================================== *)
(** ** database.py *)
(* ===================================================================== *)

Module Storage.

(** Modelled from the spec: [create_document] of database.py, the storage
    accessor's insert.  It stores one record in the named collection and
    returns the newly assigned identifier in string form; with no connection
    it fails (StorageUnavailable), and an error of the round-trip
    (StorageError) propagates. *)
Definition create_document (c : string) (record : Doc) : M World string :=
  fun w =>
    match db w with
    | None => (Raise (PyException "Database not available"), w)
    | Some _ => bind (db_call (insert_one c record))
                     (fun o => ret (oid_str o)) w
    end.

(** Modelled from the spec: [get_documents] of database.py, the storage
    accessor's fetch-all: every record of the named collection, each tagged
    with its identifier, in storage order; it fails as the insert does. *)
Definition get_documents (c : string) : M World (list Doc) :=
  fun w =>
    match db w with
    | None => (Raise (PyException "Database not available"), w)
    | Some _ => db_call (find c) w
    end.

End Storage.
Export Storage.

(* ===================================================================== *)
(** ** main.py *)
(* ===================================================================== *)

Module Main.

(** [GET /] *)
Definition read_root : M World Doc :=
  ret (<["message" := VStr "E-Commerce Backend is running"]> ∅).

(** [GET /api/health] *)
Definition health : M World Doc :=
  ret (<["status" := VStr "ok"]> ∅).

Definition sample_products : list Doc :=
  [ list_to_map
      [ ("title", VStr "Classic Tee");
        ("description", VStr "Soft cotton tee in a relaxed fit.");
        ("price", VFloat 19.99);
        ("category", VStr "Apparel");
        ("in_stock", VBool true);
        ("image", VStr "https://images.unsplash.com/photo-1512436991641-6745cdb1723f?w=800&q=80&auto=format&fit=crop") ];
    list_to_map
      [ ("title", VStr "Canvas Sneakers");
        ("description", VStr "Everyday low-top sneakers with cushioned soles.");
        ("price", VFloat 49.0);
        ("category", VStr "Shoes");
        ("in_stock", VBool true);
        ("image", VStr "https://images.unsplash.com/photo-1528701800489-20beeb13d1d1?w=800&q=80&auto=format&fit=crop") ];
    list_to_map
      [ ("title", VStr "Leather Backpack");
        ("description", VStr "Durable backpack with laptop sleeve.");
        ("price", VFloat 89.5);
        ("category", VStr "Bags");
        ("in_stock", VBool true);
        ("image", VStr "https://images.unsplash.com/photo-1521133573892-e44906baee46?w=800&q=80&auto=format&fit=crop") ];
    list_to_map
      [ ("title", VStr "Aviator Sunglasses");
        ("description", VStr "UV400 protection with classic metal frame.");
        ("price", VFloat 29.95);
        ("category", VStr "Accessories");
        ("in_stock", VBool true);
        ("image", VStr "https://images.unsplash.com/photo-1511499767150-a48a237f0083?w=800&q=80&auto=format&fit=crop") ] ].

(** The element of the seeding comprehension: validate a sample against the
    Product schema and dump the validated record. *)
Definition validate_product (p : Doc) : M World Doc :=
  (r <- (fun w => (Product_new p, w)) ;;
   ret (Product_model_dump r))%eff.

(** Seed the store with the sample products if the product collection is
    empty. *)
Definition _ensure_seed_products : M World unit :=
  (h <- get ;;
   match db h with
   | None => ret tt
   | Some _ =>
       count <- db_call (count_documents "product") ;;
       if Nat.eqb count 0 then
         validated <- map_M validate_product sample_products ;;
         db_call (insert_many "product" validated)
       else ret tt
   end)%eff.

(** The record [GET /api/products] answers with when there is no database. *)
Definition fallback_product : Doc :=
  list_to_map
    [ ("id", VStr "demo-1");
      ("title", VStr "Classic Tee");
      ("description", VStr "Soft cotton tee in a relaxed fit.");
      ("price", VFloat 19.99);
      ("category", VStr "Apparel");
      ("in_stock", VBool true);
      ("image", VStr "https://images.unsplash.com/photo-1512436991641-6745cdb1723f?w=800&q=80&auto=format&fit=crop") ].

(** [POST /api/orders] *)
Definition create_order (order : Order) : M World Doc :=
  (h <- get ;;
   match db h with
   | None => raise (HTTPException 503 "Database not available")
   | Some _ =>
       if match items order with [] => true | _ => false end
          || existsb (fun i => quantity i <=? 0) (items order)
       then raise (HTTPException 400 "Invalid order items")
       else
         order_id <- create_document "order" (Order_model_dump order) ;;
         ret (<["order_id" := VStr order_id]>
              (<["status" := VStr "received"]> ∅))
   end)%eff.

(** [response[k] = v] on the handler's local dict. *)
Definition setitem (k : string) (v : Value) : M (Doc * World) unit :=
  modify (fun '(response, w) => (<[k := v]> response, w)).

(** [GET /test] *)
Definition test_database : M World Doc :=
  fun w =>
    let response : Doc :=
      list_to_map
        [ ("backend", VStr "✅ Running");
          ("database", VStr "❌ Not Available");
          ("database_url", VNone);
          ("database_name", VNone);
          ("connection_status", VStr "Not Connected");
          ("collections", VList []) ] in
    let body : M (Doc * World) Doc :=
      (try_except
         (h <- lift get ;;
          match db h with
          | Some d =>
              setitem "database" (VStr "✅ Available") ;;;
              setitem "database_url" (VStr "✅ Configured") ;;;
              setitem "database_name"
                (VStr (match name d with
                       | Some n => n
                       | None => "✅ Connected"
                       end)) ;;;
              setitem "connection_status" (VStr "Connected") ;;;
              try_except
                (collections <- lift (db_call list_collection_names) ;;
                 setitem "collections" (VList (VStr <$> take 10 collections)) ;;;
                 setitem "database" (VStr "✅ Connected & Working"))
                (fun e =>
                   setitem "database"
                     (VStr ("⚠️  Connected but Error: "
                            +:+ str_take 50 (exn_str e))))
          | None =>
              setitem "database" (VStr "⚠️  Available but not initialized")
          end)
         (fun e =>
            setitem "database"
              (VStr ("❌ Error: " +:+ str_take 50 (exn_str e)))) ;;;
       url <- lift (getenv "DATABASE_URL") ;;
       setitem "database_url"
         (VStr (if opt_str_truthy url then "✅ Set" else "❌ Not Set")) ;;;
       dbname <- lift (getenv "DATABASE_NAME") ;;
       setitem "database_name"
         (VStr (if opt_str_truthy dbname then "✅ Set" else "❌ Not Set")) ;;;
       st <- get ;;
       ret (fst st))%eff in
    let '(r, (_, w')) := body (response, w) in (r, w').

Section Serialize.

Variable py_repr : Value -> string.

(** Convert the identifier to a string and return a clean dict. *)
Definition _serialize (doc : Doc) : Doc :=
  if decide (doc = ∅) then doc
  else
    let d := doc in
    match d !! "_id" with
    | Some v => <["id" := VStr (py_str py_repr v)]> (delete "_id" d)
    | None => d
    end.

(** [GET /api/products] *)
Definition list_products : M World (list Doc) :=
  (h <- get ;;
   match db h with
   | None => ret [fallback_product]
   | Some _ =>
       _ensure_seed_products ;;;
       docs <- get_documents "product" ;;
       ret (map _serialize docs)
   end)%eff.

End Serialize.

End Main.
Export Main.

(* ===================================================================== *)
(** ** The service as a transition system *)
(* ===================================================================== *)

Module Service.

Inductive Request :=
| GetRoot
| GetHealth
| GetProducts
| PostOrder (order : Order)
| GetTest.

Section Dispatch.

Variable py_repr : Value -> string.

(** The route table: each request runs its handler; the body is the JSON
    value the handler returned. *)
Definition handle (r : Request) : M World Value :=
  match r with
  | GetRoot => bind read_root (fun b => ret (VDict b))
  | GetHealth => bind health (fun b => ret (VDict b))
  | GetProducts => bind (list_products py_repr) (fun l => ret (VList (VDict <$> l)))
  | PostOrder order => bind (create_order order) (fun b => ret (VDict b))
  | GetTest => bind test_database (fun b => ret (VDict b))
  end.

(** The world a request leaves behind, whether it returned or raised. *)
Definition step (r : Request) (w : World) : World := snd (handle r w).

(** Requests served one after the other. *)
Fixpoint run (rs : list Request) (w : World) : World :=
  match rs with
  | [] => w
  | r :: rs' => run rs' (step r w)
  end.

End Dispatch.

(** The documents of a collection as the process sees them. *)
Definition stored (c : string) (w : World) : list Doc :=
  match db w with
  | Some d => collection c d
  | None => []
  end.

(** The business rule on an order payload: some item, every quantity
    strictly positive. *)
Definition order_ok (o : Order) : bool :=
  match items o with [] => false | _ => true end
  && forallb (fun i => 0 <? quantity i) (items o).

(** The same rule read off a stored document. *)
Definition line_item_ok (v : Value) : bool :=
  match v with
  | VDict m => match m !! "quantity" with
               | Some (VInt q) => 0 <? q
               | _ => false
               end
  | _ => false
  end.

Definition order_doc_ok (doc : Doc) : bool :=
  match doc !! "items" with
  | Some (VList l) => match l with [] => false | _ => true end
                      && forallb line_item_ok l
  | _ => false
  end.

End Service.
Export Service.

(* ===================================================================== *)
(** ** The vocabulary of the diagnostics, and sample inputs *)
(* ===================================================================== *)

(** The strings the handler of [/test] assigns to the [database] field; the
    two that report an exception carry at most fifty characters of its
    text. *)
Inductive database_status : string -> Prop :=
| status_not_available : database_status "❌ Not Available"
| status_available : database_status "✅ Available"
| status_working : database_status "✅ Connected & Working"
| status_connected_error (text : string) :
    (str_len text <= 50)%nat ->
    database_status ("⚠️  Connected but Error: " +:+ text)
| status_not_initialized :
    database_status "⚠️  Available but not initialized"
| status_error (text : string) :
    (str_len text <= 50)%nat ->
    database_status ("❌ Error: " +:+ text).

Module Samples.

(** A reachable, empty database. *)
Definition shop : Database :=
  {| name := Some "shop"; collections := ∅; next_oid := 1%N; fault := None |}.

(** A process with a connection and both variables configured. *)
Definition online : World :=
  {| db := Some shop;
     environ := <["DATABASE_URL" := "mongodb://localhost:27017"]>
                (<["DATABASE_NAME" := "shop"]> ∅) |}.

(** A process started without a connection. *)
Definition offline : World := {| db := None; environ := ∅ |}.

(** A process whose variables are set, but to the empty string. *)
Definition blank_env : World :=
  {| db := None;
     environ := <["DATABASE_URL" := ""]> (<["DATABASE_NAME" := ""]> ∅) |}.

Definition two_tees : Order :=
  {| items := [ {| product_id := "x"; quantity := 2 |} ] |}.

Definition zero_tees : Order :=
  {| items := [ {| product_id := "x"; quantity := 0 |} ] |}.

(** An order for 2^63 items: one more than eight signed bytes hold. *)
Definition too_many_tees : Order :=
  {| items := [ {| product_id := "x"; quantity := 9223372036854775808 |} ] |}.

(** A stored record that already has a field named [id]. *)
Definition legacy_record : Doc :=
  <["_id" := VOid 1%N]> (<["id" := VStr "sku-7"]>
  (<["title" := VStr "Classic Tee"]> ∅)).

(** A record that never went through storage. *)
Definition draft_record : Doc :=
  <["title" := VStr "Classic Tee"]> ∅.

(** A stand-in for the conversion of floats and containers. *)
Definition plain_repr : Value -> string := fun _ => "".

End Samples.

(** Further sample worlds: a store that already holds a product, and a
    store whose server cannot be reached. *)
Module Cases.

Definition tee : Doc :=
  <["_id" := VOid 7%N]> (<["title" := VStr "Classic Tee"]> ∅).

Definition stocked_shop : Database :=
  {| name := Some "shop"; collections := <["product" := [tee]]> ∅;
     next_oid := 8%N; fault := None |}.

Definition stocked : World := {| db := Some stocked_shop; environ := ∅ |}.

Definition down_shop : Database :=
  {| name := Some "shop"; collections := ∅; next_oid := 1%N;
     fault := Some "connection refused" |}.

Definition down : World := {| db := Some down_shop; environ := ∅ |}.

(** The world [Samples.online] after its first listing. *)
Definition seeded : World :=
  {| db := Some (store "product" sample_products Samples.shop);
     environ := environ Samples.online |}.

End Cases.

(* ===================================================================== *)
(** ** Facts about strings and identifiers *)
(* ===================================================================== *)

Lemma length_append (a b : string) :
  String.length (a +:+ b) = (String.length a + String.length b)%nat.
Proof. induction a as [|c a IH]; simpl; [reflexivity | now rewrite IH]. Qed.

Lemma hex_fixed_length (n : nat) (v : N) : String.length (hex_fixed n v) = n.
Proof.
  revert v; induction n as [|n IH]; intros v; simpl; [reflexivity|].
  rewrite length_append, IH. simpl. lia.
Qed.

Lemma oid_str_length (o : ObjectId) : String.length (oid_str o) = 24%nat.
Proof. apply hex_fixed_length. Qed.

Lemma oid_str_nonempty (o : ObjectId) : oid_str o <> "".
Proof.
  intros H. pose proof (oid_str_length o) as L. rewrite H in L. discriminate.
Qed.


(** A slice has the characters asked for, or all there are. *)
Lemma str_take_len (n : nat) (s : string) :
  str_len (str_take n s) = Nat.min n (str_len s).
Proof.
  revert n; induction s as [|c s IH]; intros n; simpl; [lia|].
  destruct (is_continuation c) eqn:Hc; simpl; rewrite ?Hc.
  - apply IH.
  - destruct n as [|n]; simpl; [reflexivity|]. rewrite Hc, IH. reflexivity.
Qed.

(** A slice is a prefix, and cuts between characters. *)
Lemma str_take_split (n : nat) (s : string) :
  exists rest, s = str_take n s +:+ rest /\ at_boundary rest.
Proof.
  revert n; induction s as [|c s IH]; intros n; simpl; [by exists ""|].
  destruct (is_continuation c) eqn:Hc.
  - destruct (IH n) as (r & Hr & Hb). exists r. split; [|done].
    change (String c s = String c (str_take n s +:+ r)). congruence.
  - destruct n as [|n].
    + exists (String c s). by split.
    + destruct (IH n) as (r & Hr & Hb). exists r. split; [|done].
      change (String c s = String c (str_take n s +:+ r)). congruence.
Qed.

(** The three facts above single the slice out. *)
Lemma str_take_unique (n : nat) (s shown rest : string) :
  s = shown +:+ rest ->
  str_len shown = Nat.min n (str_len s) ->
  at_boundary rest ->
  shown = str_take n s.
Proof.
  revert n shown; induction s as [|c s IH]; intros n shown.
  - destruct shown; [done | discriminate].
  - destruct shown as [|c' shown].
    + intros Hs Hlen Hb. change (String c s = rest) in Hs. subst rest.
      simpl in Hb, Hlen |- *. rewrite Hb in *.
      destruct n; [done | lia].
    + intros Hs. change (String c s = String c' (shown +:+ rest)) in Hs.
      injection Hs as <- Hs. simpl.
      destruct (is_continuation c) eqn:Hc; intros Hlen Hb.
      * f_equal. by apply IH.
      * destruct n as [|n]; [lia|].
        f_equal. apply IH; [done | lia | done].
Qed.



(** A byte below 128 is a character of its own. *)
Lemma ascii_is_character (c : ascii) :
  (nat_of_ascii c < 128)%nat -> is_continuation c = false.
Proof.
  destruct c as [b0 b1 b2 b3 b4 b5 b6 b7]. destruct b7; [|reflexivity].
  destruct b0, b1, b2, b3, b4, b5, b6; vm_compute; lia.
Qed.

(** On a text of such bytes, slicing is cutting after [n] bytes. *)
Lemma str_take_ascii_length (n : nat) (s : string) :
  (forall i c, String.get i s = Some c -> (nat_of_ascii c < 128)%nat) ->
  String.length (str_take n s) = Nat.min n (String.length s).
Proof.
  revert n; induction s as [|c s IH]; intros n H; simpl; [lia|].
  rewrite (ascii_is_character c) by (apply (H 0%nat); reflexivity).
  destruct n as [|n]; simpl; [reflexivity|].
  rewrite IH; [reflexivity|]. intros i c' Hi. by apply (H (S i)).
Qed.

(** Slices count characters, not bytes: each of these holds two bytes. *)
Example str_take_accents : str_take 2 "éàü" = "éà" /\ str_len "éàü" = 3%nat.
Proof. split; reflexivity. Qed.

(* ===================================================================== *)
(** ** Equations of the driver and of the effect layer *)
(* ===================================================================== *)

(** Unfolds a handler down to its driver calls, which stay folded and are
    rewritten with the equations below. *)
Ltac run_handler :=
  cbv beta iota zeta delta
    [list_products _ensure_seed_products create_order create_document
     get_documents test_database read_root health handle step
     bind try_except lift get setitem modify ret raise getenv db_call
     set_db fst snd db environ].

Lemma snd_bind_ret {S A B} (m : M S A) (f : A -> B) (s : S) :
  snd (bind m (fun a => ret (f a)) s) = snd (m s).
Proof. unfold bind, ret. by destruct (m s) as [[a|e] s']. Qed.

Lemma store_fault (c : string) (docs : list Doc) (d : Database) :
  fault (store c docs d) = fault d.
Proof. reflexivity. Qed.

Lemma round_trip_fault {A} (op : Database -> A * Database) (d : Database) t :
  fault d = Some t -> round_trip op d = (Raise (PyException t), d).
Proof. intros Hf. unfold round_trip. by rewrite Hf. Qed.

Lemma count_documents_healthy (c : string) (d : Database) :
  fault d = None ->
  count_documents c d = (Return (length (collection c d)), d).
Proof. intros Hf. unfold count_documents, round_trip. by rewrite Hf. Qed.

Lemma count_documents_fault (c : string) (d : Database) t :
  fault d = Some t -> count_documents c d = (Raise (PyException t), d).
Proof. apply round_trip_fault. Qed.

Lemma count_zero_inv (c : string) (d : Database) :
  count_documents c d = (Return 0%nat, d) ->
  fault d = None /\ collection c d = [].
Proof.
  unfold count_documents, round_trip. destruct (fault d); [done|].
  intros [= H]. split; [done|]. by apply nil_length_inv.
Qed.

Lemma find_healthy (c : string) (d : Database) :
  fault d = None -> Mongo.find c d = (Return (collection c d), d).
Proof. intros Hf. unfold Mongo.find, round_trip. by rewrite Hf. Qed.

Lemma insert_one_healthy (c : string) (doc : Doc) (d : Database) :
  fault d = None ->
  bson_refusal (<["_id" := VOid (next_oid d)]> doc) = None ->
  insert_one c doc d = (Return (next_oid d), store c [doc] d).
Proof.
  intros Hf Hr. unfold insert_one, write. rewrite Hf. cbn [assign_ids first_refusal].
  by rewrite Hr.
Qed.

Lemma insert_one_refused (c : string) (doc : Doc) (d : Database) t :
  fault d = None ->
  bson_refusal (<["_id" := VOid (next_oid d)]> doc) = Some t ->
  insert_one c doc d = (Raise (PyException t), d).
Proof.
  intros Hf Hr. unfold insert_one, write. rewrite Hf. cbn [assign_ids first_refusal].
  by rewrite Hr.
Qed.

Lemma insert_one_fault (c : string) (doc : Doc) (d : Database) t :
  fault d = Some t -> insert_one c doc d = (Raise (PyException t), d).
Proof. intros Hf. unfold insert_one, write. by rewrite Hf. Qed.

Lemma insert_many_healthy (c : string) (docs : list Doc) (d : Database) :
  docs <> [] -> fault d = None ->
  first_refusal (assign_ids (next_oid d) docs) = None ->
  insert_many c docs d = (Return tt, store c docs d).
Proof.
  intros Hne Hf Hr. destruct docs as [|x r]; [done|].
  unfold insert_many, write, bind, ret. by rewrite Hf, Hr.
Qed.

(** The encoder accepts a dict when it accepts each of its values. *)
Lemma bson_encodable_dict (m : Doc) :
  bson_encodable (VDict m) = true
  <-> map_Forall (fun _ v => bson_encodable v = true) m.
Proof.
  cbn [bson_encodable].
  apply (map_fold_weak_ind
           (fun b m => b = true
                       <-> map_Forall (fun _ v => bson_encodable v = true) m)).
  - split; [intros _; apply map_Forall_empty | done].
  - intros k v m' r Hk IH. rewrite andb_true_iff, IH.
    by rewrite map_Forall_insert.
Qed.

Lemma assign_ids_length (o : ObjectId) (docs : list Doc) :
  length (assign_ids o docs) = length docs.
Proof.
  revert o; induction docs as [|x r IH]; intros o; simpl; [done | by rewrite IH].
Qed.

Lemma collection_store_eq (c : string) (docs : list Doc) (d : Database) :
  collection c (store c docs d)
  = collection c d ++ assign_ids (next_oid d) docs.
Proof. unfold collection at 1, store; simpl. by rewrite lookup_insert_eq. Qed.

Lemma collection_store_ne (c c' : string) (docs : list Doc) (d : Database) :
  c <> c' -> collection c' (store c docs d) = collection c' d.
Proof. intros H. unfold collection, store; simpl. by rewrite lookup_insert_ne. Qed.

(* ===================================================================== *)
(** ** Orders *)
(* ===================================================================== *)

(** The test [create_order] rejects on is the negation of the business
    rule. *)
Lemma order_gate (order : Order) :
  match items order with [] => true | _ => false end
  || existsb (fun i => quantity i <=? 0) (items order)
  = negb (order_ok order).
Proof.
  unfold order_ok. destruct (items order) as [|i l]; [reflexivity|].
  generalize (i :: l); intros l'. simpl.
  induction l' as [|j l' IH]; [reflexivity|].
  simpl. rewrite IH.
  destruct (Z.leb_spec (quantity j) 0), (Z.ltb_spec 0 (quantity j));
    simpl; try lia; reflexivity.
Qed.

Lemma order_ok_false (order : Order) :
  items order = [] \/ (exists i, i ∈ items order /\ quantity i <= 0) ->
  order_ok order = false.
Proof.
  unfold order_ok. intros [-> | (i & Hi & Hq)]; [reflexivity|].
  apply andb_false_iff; right. apply not_true_iff_false.
  intros H. rewrite forallb_forall in H.
  apply list_elem_of_In, H in Hi. lia.
Qed.

Lemma order_ok_true (order : Order) :
  items order <> [] -> (forall i, i ∈ items order -> 0 < quantity i) ->
  order_ok order = true.
Proof.
  unfold order_ok. intros Hne Hq. apply andb_true_iff; split.
  - by destruct (items order).
  - apply forallb_forall. intros i Hi%list_elem_of_In%Hq. lia.
Qed.

Lemma line_item_dump_ok (i : OrderItem) :
  line_item_ok (OrderItem_model_dump i) = (0 <? quantity i).
Proof. unfold line_item_ok, OrderItem_model_dump. by simplify_map_eq. Qed.

Lemma forallb_line_items (l : list OrderItem) :
  forallb line_item_ok (map OrderItem_model_dump l)
  = forallb (fun i => 0 <? quantity i) l.
Proof.
  induction l as [|i l IH]; [reflexivity|].
  cbn [forallb map]. by rewrite line_item_dump_ok, IH.
Qed.

(** A stored order satisfies the rule exactly when its payload did. *)
Lemma order_doc_ok_dump (o : ObjectId) (order : Order) :
  order_doc_ok (<["_id" := VOid o]> (Order_model_dump order)) = order_ok order.
Proof.
  unfold order_doc_ok, Order_model_dump, order_ok. simplify_map_eq.
  rewrite forallb_line_items. by destruct (items order).
Qed.

(** C1: with a database handle present, an order whose item list is empty
    or that has an item of quantity at most zero is refused with the HTTP
    status 400, and the request leaves the world, hence the order
    collection, exactly as it found it. *)
Theorem create_order_rejects_invalid
    (order : Order) (w : World) (d : Database) :
  db w = Some d ->
  (items order = [] \/ exists i, i ∈ items order /\ quantity i <= 0) ->
  create_order order w = (Raise (HTTPException 400 "Invalid order items"), w)
  /\ http_status (fst (create_order order w)) = 400
  /\ stored "order" (snd (create_order order w)) = stored "order" w.
Proof.
  intros Hdb Hbad.
  assert (E : create_order order w
              = (Raise (HTTPException 400 "Invalid order items"), w)).
  { destruct w as [dbo env]; simpl in Hdb; subst dbo.
    run_handler. by rewrite order_gate, (order_ok_false order Hbad). }
  by rewrite E.
Qed.

Lemma create_order_rejects_invalid_witness :
  create_order Samples.zero_tees Samples.online
  = (Raise (HTTPException 400 "Invalid order items"), Samples.online)
  /\ http_status (fst (create_order Samples.zero_tees Samples.online)) = 400
  /\ stored "order" (snd (create_order Samples.zero_tees Samples.online))
     = stored "order" Samples.online.
Proof.
  apply (create_order_rejects_invalid Samples.zero_tees Samples.online
           Samples.shop).
  - reflexivity.
  - right. exists {| product_id := "x"; quantity := 0 |}. split.
    + apply list_elem_of_here.
    + simpl. lia.
Defined.

(** The encoder accepts a stored order exactly when every quantity fits
    eight bytes. *)
Lemma order_doc_encodable (o : ObjectId) (order : Order) :
  bson_encodable (VDict (<["_id" := VOid o]> (Order_model_dump order)))
  = forallb (fun i => int64_range (quantity i)) (items order).
Proof.
  apply eq_true_iff_eq. rewrite bson_encodable_dict. unfold Order_model_dump.
  rewrite map_Forall_insert by by simplify_map_eq.
  rewrite map_Forall_insert by done.
  rewrite forallb_forall. cbn [bson_encodable]. rewrite forallb_forall.
  split.
  - intros (_ & H & _) i Hi.
    specialize (H (OrderItem_model_dump i) (in_map _ _ _ Hi)).
    unfold OrderItem_model_dump in H. apply bson_encodable_dict in H.
    rewrite map_Forall_insert in H by by simplify_map_eq.
    rewrite map_Forall_insert in H by done. by destruct H as (_ & H & _).
  - intros H. split; [done|]. split; [|apply map_Forall_empty].
    intros v (i & <- & Hi)%in_map_iff.
    unfold OrderItem_model_dump. apply bson_encodable_dict.
    rewrite map_Forall_insert by by simplify_map_eq.
    rewrite map_Forall_insert by done.
    split; [done|]. split; [by apply H | apply map_Forall_empty].
Qed.

Lemma order_doc_accepted (o : ObjectId) (order : Order) :
  (forall i, i ∈ items order -> quantity i <= 9223372036854775807
                               /\ -9223372036854775808 <= quantity i) ->
  (bson_size (VDict (<["_id" := VOid o]> (Order_model_dump order)))
   <= max_bson_size)%N ->
  bson_refusal (<["_id" := VOid o]> (Order_model_dump order)) = None.
Proof.
  intros Hq Hs. unfold bson_refusal. rewrite order_doc_encodable.
  replace (forallb _ (items order)) with true.
  - cbn [negb]. by rewrite (proj2 (N.ltb_ge _ _) Hs).
  - symmetry. apply forallb_forall. intros i Hi%list_elem_of_In%Hq.
    unfold int64_range. apply andb_true_iff. lia.
Qed.

(** C2, as the code has it: with a database handle present and the store
    answering, an order with at least one item, whose quantities are all
    strictly positive and at most 2^63 - 1, and whose document the store
    holds (at most 16 MiB once encoded), is accepted: the handler returns
    (HTTP 200) an object whose [status] is "received" and whose [order_id]
    is a non-empty string, the string form of the identifier under which
    the order was stored. *)
Theorem create_order_accepts_valid
    (order : Order) (w : World) (d : Database) :
  db w = Some d -> fault d = None ->
  items order <> [] ->
  (forall i, i ∈ items order -> 0 < quantity i <= 9223372036854775807) ->
  (bson_size (VDict (<["_id" := VOid (next_oid d)]> (Order_model_dump order)))
   <= max_bson_size)%N ->
  exists order_id w',
    create_order order w
    = (Return (<["order_id" := VStr order_id]>
               (<["status" := VStr "received"]> ∅)), w')
    /\ order_id <> ""
    /\ http_status (fst (create_order order w)) = 200
    /\ stored "order" w'
       = stored "order" w
         ++ [<["_id" := VOid (next_oid d)]> (Order_model_dump order)].
Proof.
  intros Hdb Hf Hne Hq Hs.
  exists (oid_str (next_oid d)),
         (set_db (store "order" [Order_model_dump order] d) w).
  assert (Hpos : forall i, i ∈ items order -> 0 < quantity i)
    by (intros i Hi; apply Hq in Hi; lia).
  assert (Hacc : bson_refusal (<["_id" := VOid (next_oid d)]>
                                 (Order_model_dump order)) = None)
    by (apply order_doc_accepted; [intros i Hi; apply Hq in Hi; lia | done]).
  assert (E : create_order order w
     = (Return (<["order_id" := VStr (oid_str (next_oid d))]>
                (<["status" := VStr "received"]> ∅)),
        set_db (store "order" [Order_model_dump order] d) w)).
  { destruct w as [dbo env]; simpl in Hdb; subst dbo.
    run_handler. rewrite order_gate, (order_ok_true order Hne Hpos).
    cbn [negb]. by rewrite insert_one_healthy. }
  rewrite E. split; [done|]. split; [apply oid_str_nonempty|]. split; [done|].
  unfold stored. rewrite Hdb. simpl. by rewrite collection_store_eq.
Qed.

Lemma create_order_accepts_valid_witness :
  exists order_id w',
    create_order Samples.two_tees Samples.online
    = (Return (<["order_id" := VStr order_id]>
               (<["status" := VStr "received"]> ∅)), w')
    /\ order_id <> ""
    /\ http_status (fst (create_order Samples.two_tees Samples.online)) = 200
    /\ stored "order" w'
       = stored "order" Samples.online
         ++ [<["_id" := VOid (next_oid Samples.shop)]>
             (Order_model_dump Samples.two_tees)].
Proof.
  apply (create_order_accepts_valid Samples.two_tees Samples.online
           Samples.shop).
  - reflexivity.
  - reflexivity.
  - discriminate.
  - intros i Hi. apply list_elem_of_singleton in Hi. subst i. simpl. lia.
  - vm_compute. discriminate.
Defined.

(** C2 as stated fails: the order [too_many_tees] has one item, of the
    strictly positive quantity 2^63, and the store of [online] answers; yet
    the insert raises the encoder's OverflowError, the request ends in a
    500, and no order is stored. *)
Lemma create_order_overflowing_quantity :
  items Samples.too_many_tees
  = [ {| product_id := "x"; quantity := 9223372036854775808 |} ]
  /\ db Samples.online = Some Samples.shop
  /\ fault Samples.shop = None
  /\ create_order Samples.too_many_tees Samples.online
     = (Raise (PyException "MongoDB can only handle up to 8-byte ints"),
        Samples.online)
  /\ http_status (fst (create_order Samples.too_many_tees Samples.online))
     = 500
  /\ stored "order" (snd (create_order Samples.too_many_tees Samples.online))
     = [].
Proof. repeat split; vm_compute; reflexivity. Qed.

(** C6: with no database handle, [POST /api/orders] answers 503 whatever
    the payload is, valid or not: the handle is tested before the items
    are looked at. *)
Theorem create_order_unavailable (order : Order) (w : World) :
  db w = None ->
  create_order order w
  = (Raise (HTTPException 503 "Database not available"), w)
  /\ http_status (fst (create_order order w)) = 503.
Proof.
  intros Hdb. destruct w as [dbo env]; simpl in Hdb; subst dbo. by run_handler.
Qed.

Lemma create_order_unavailable_witness :
  (create_order Samples.zero_tees Samples.offline
   = (Raise (HTTPException 503 "Database not available"), Samples.offline)
   /\ http_status (fst (create_order Samples.zero_tees Samples.offline)) = 503)
  /\ (create_order Samples.two_tees Samples.offline
      = (Raise (HTTPException 503 "Database not available"), Samples.offline)
      /\ http_status (fst (create_order Samples.two_tees Samples.offline)) = 503).
Proof.
  split.
  - apply (create_order_unavailable Samples.zero_tees Samples.offline).
    reflexivity.
  - apply (create_order_unavailable Samples.two_tees Samples.offline).
    reflexivity.
Defined.

(* ===================================================================== *)
(** ** Products: seeding and the fallback *)
(* ===================================================================== *)

(** Every sample passes the Product schema, and its dump is the sample
    itself. *)
Lemma seed_validation (w : World) :
  map_M validate_product sample_products w = (Return sample_products, w).
Proof. vm_compute. reflexivity. Qed.

Lemma sample_products_length : length sample_products = 4%nat.
Proof. reflexivity. Qed.

(** The store holds every sample, under any identifiers. *)
Lemma samples_accepted (o : ObjectId) :
  first_refusal (assign_ids o sample_products) = None.
Proof. vm_compute. reflexivity. Qed.

(** C3: when [GET /api/products] finds a database whose product collection
    counts zero documents, it inserts the four sample products, each under
    a fresh identifier, and only then fetches (the answer is those four,
    serialized); a second call on the world the first one left inserts
    nothing: it answers the same and leaves that world as it is. *)
Theorem list_products_seeds_once
    (py_repr : Value -> string) (w : World) (d : Database) :
  db w = Some d ->
  count_documents "product" d = (Return 0%nat, d) ->
  exists w',
    list_products py_repr w
    = (Return (_serialize py_repr <$> assign_ids (next_oid d) sample_products),
       w')
    /\ stored "product" w = []
    /\ stored "product" w' = assign_ids (next_oid d) sample_products
    /\ length (stored "product" w') = 4%nat
    /\ list_products py_repr w'
       = (Return (_serialize py_repr <$> assign_ids (next_oid d) sample_products),
          w').
Proof.
  intros Hdb Hcount. destruct (count_zero_inv _ _ Hcount) as [Hf Hempty].
  destruct w as [dbo env]; simpl in Hdb; subst dbo.
  exists {| db := Some (store "product" sample_products d); environ := env |}.
  assert (Hstored : collection "product" (store "product" sample_products d)
                    = assign_ids (next_oid d) sample_products)
    by (by rewrite collection_store_eq, Hempty).
  split; [|split; [|split; [|split]]].
  - run_handler. rewrite Hcount. cbn [Nat.eqb]. run_handler.
    rewrite seed_validation.
    rewrite insert_many_healthy by (done || apply samples_accepted).
    run_handler.
    rewrite find_healthy by exact Hf. by rewrite Hstored.
  - exact Hempty.
  - exact Hstored.
  - unfold stored; simpl. by rewrite Hstored, assign_ids_length.
  - run_handler. rewrite count_documents_healthy by exact Hf.
    rewrite Hstored, assign_ids_length, sample_products_length.
    cbn [Nat.eqb]. run_handler.
    rewrite find_healthy by exact Hf. by rewrite Hstored.
Qed.

Lemma list_products_seeds_once_witness :
  exists w',
    list_products Samples.plain_repr Samples.online
    = (Return (_serialize Samples.plain_repr
               <$> assign_ids (next_oid Samples.shop) sample_products), w')
    /\ stored "product" Samples.online = []
    /\ stored "product" w' = assign_ids (next_oid Samples.shop) sample_products
    /\ length (stored "product" w') = 4%nat
    /\ list_products Samples.plain_repr w'
       = (Return (_serialize Samples.plain_repr
                  <$> assign_ids (next_oid Samples.shop) sample_products), w').
Proof.
  apply (list_products_seeds_once Samples.plain_repr Samples.online
           Samples.shop); reflexivity.
Defined.

(** C7: with no database handle, [GET /api/products] returns (HTTP 200) a
    list of exactly one record, the hardcoded fallback with the identifier
    "demo-1"; it makes no call to the store and leaves the world as it
    is. *)
Theorem list_products_fallback (py_repr : Value -> string) (w : World) :
  db w = None ->
  list_products py_repr w = (Return [fallback_product], w)
  /\ http_status (fst (list_products py_repr w)) = 200
  /\ length [fallback_product] = 1%nat
  /\ fallback_product !! "id" = Some (VStr "demo-1").
Proof.
  intros Hdb. destruct w as [dbo env]; simpl in Hdb; subst dbo.
  run_handler. repeat split; reflexivity.
Qed.

Lemma list_products_fallback_witness :
  list_products Samples.plain_repr Samples.offline
  = (Return [fallback_product], Samples.offline)
  /\ http_status (fst (list_products Samples.plain_repr Samples.offline)) = 200
  /\ length [fallback_product] = 1%nat
  /\ fallback_product !! "id" = Some (VStr "demo-1").
Proof.
  apply (list_products_fallback Samples.plain_repr Samples.offline).
  reflexivity.
Defined.

(* ===================================================================== *)
(** ** Serialization *)
(* ===================================================================== *)

Lemma serialize_with_id (py_repr : Value -> string) (doc : Doc) (v : Value) :
  doc !! "_id" = Some v ->
  _serialize py_repr doc
  = <["id" := VStr (py_str py_repr v)]> (delete "_id" doc).
Proof.
  intros H. unfold _serialize. case_decide as He.
  - subst doc. by rewrite lookup_empty in H.
  - by rewrite H.
Qed.

(** C4, as the code has it: a record that carries the storage identifier
    [_id] is serialized by removing [_id] and setting [id] to the string
    form of the identifier; every field named neither [_id] nor [id] keeps
    its key and its value, and no other key appears.  A field the record
    already had under the name [id] does not pass through: it is replaced by
    the identifier. *)
Theorem serialize_renames_identifier
    (py_repr : Value -> string) (doc : Doc) (v : Value) :
  doc !! "_id" = Some v ->
  _serialize py_repr doc !! "_id" = None
  /\ _serialize py_repr doc !! "id" = Some (VStr (py_str py_repr v))
  /\ (forall k, k <> "_id" -> k <> "id" ->
        _serialize py_repr doc !! k = doc !! k)
  /\ dom (_serialize py_repr doc) = {["id"]} ∪ (dom doc ∖ {["_id"]}).
Proof.
  intros H. rewrite (serialize_with_id py_repr doc v H).
  split; [|split; [|split]].
  - rewrite lookup_insert_ne by done. apply lookup_delete_eq.
  - apply lookup_insert_eq.
  - intros k H1 H2. rewrite lookup_insert_ne by done.
    by rewrite lookup_delete_ne.
  - by rewrite dom_insert_L, dom_delete_L.
Qed.

Lemma serialize_renames_identifier_witness :
  _serialize Samples.plain_repr Samples.legacy_record !! "_id" = None
  /\ _serialize Samples.plain_repr Samples.legacy_record !! "id"
     = Some (VStr (py_str Samples.plain_repr (VOid 1%N)))
  /\ (forall k, k <> "_id" -> k <> "id" ->
        _serialize Samples.plain_repr Samples.legacy_record !! k
        = Samples.legacy_record !! k)
  /\ dom (_serialize Samples.plain_repr Samples.legacy_record)
     = {["id"]} ∪ (dom Samples.legacy_record ∖ {["_id"]}).
Proof.
  apply (serialize_renames_identifier Samples.plain_repr
           Samples.legacy_record (VOid 1%N)).
  reflexivity.
Defined.

(** C4 as stated fails: the record [legacy_record] carries [_id] and a field
    [id] holding "sku-7"; that other field does not pass through
    unchanged, whatever the conversion of floats and containers is: after
    serialization it holds the identifier string. *)
Lemma serialize_overwrites_id_field :
  Samples.legacy_record !! "_id" = Some (VOid 1%N)
  /\ Samples.legacy_record !! "id" = Some (VStr "sku-7")
  /\ (forall py_repr : Value -> string,
        _serialize py_repr Samples.legacy_record !! "id"
        = Some (VStr "000000000000000000000001")
        /\ _serialize py_repr Samples.legacy_record !! "id"
           <> Samples.legacy_record !! "id").
Proof.
  split; [reflexivity|]. split; [reflexivity|].
  intros py_repr.
  assert (E : _serialize py_repr Samples.legacy_record !! "id"
              = Some (VStr "000000000000000000000001")).
  { rewrite (serialize_with_id py_repr Samples.legacy_record (VOid 1%N))
      by reflexivity.
    by rewrite lookup_insert_eq. }
  split; [exact E|]. rewrite E. discriminate.
Qed.

(** C9: a dictionary that is empty, or that has no [_id] key, is returned
    as it is: no [id] key is added and no field changes. *)
Theorem serialize_without_identifier
    (py_repr : Value -> string) (doc : Doc) :
  doc = ∅ \/ doc !! "_id" = None ->
  _serialize py_repr doc = doc.
Proof.
  intros H. unfold _serialize. case_decide as He; [reflexivity|].
  destruct H as [H|H]; [done|]. by rewrite H.
Qed.

Lemma serialize_without_identifier_witness :
  _serialize Samples.plain_repr ∅ = ∅
  /\ _serialize Samples.plain_repr Samples.draft_record = Samples.draft_record.
Proof.
  split.
  - apply (serialize_without_identifier Samples.plain_repr ∅).
    left. reflexivity.
  - apply (serialize_without_identifier Samples.plain_repr Samples.draft_record).
    right. reflexivity.
Defined.

(* ===================================================================== *)
(** ** Diagnostics *)
(* ===================================================================== *)

Lemma list_collection_names_fault (d : Database) t :
  fault d = Some t ->
  list_collection_names d = (Raise (PyException t), d).
Proof. apply round_trip_fault. Qed.

Lemma list_collection_names_healthy (d : Database) :
  fault d = None ->
  list_collection_names d = (Return (elements (dom (collections d))), d).
Proof. intros Hf. unfold list_collection_names, round_trip. by rewrite Hf. Qed.

(** The handler of [/test] returns, and leaves the world as it is. *)
Lemma test_database_returns (w : World) :
  exists body, test_database w = (Return body, w).
Proof.
  destruct w as [[d|] env]; [destruct (fault d) as [t|] eqn:Hf|]; run_handler.
  - rewrite (list_collection_names_fault d t Hf). eauto.
  - rewrite (list_collection_names_healthy d Hf). eauto.
  - eauto.
Qed.

(** C8: [GET /test] returns (HTTP 200) in every world, and the world is
    left as it is.  Its [database] field is one of the handler's status
    strings: without a handle the "not initialized" one; with a handle,
    "Connected & Working" when listing the collections returns; and when
    listing raises an exception of text [text], the "Connected but Error"
    prefix followed by the first fifty characters of that text: a prefix
    [shown] of [text] that holds fifty characters, or all of them when the
    text has fewer, and that is cut between two characters
    ([str_take_unique]: there is one such prefix).  For a text of ASCII
    bytes that is its first fifty bytes, or all of them. *)
Theorem test_database_always_answers (w : World) :
  exists body status,
    test_database w = (Return body, w)
    /\ http_status (fst (test_database w)) = 200
    /\ body !! "database" = Some (VStr status)
    /\ database_status status
    /\ match db w with
       | None => status = "⚠️  Available but not initialized"
       | Some d =>
           match fault d with
           | None =>
               (exists names, list_collection_names d = (Return names, d))
               /\ status = "✅ Connected & Working"
           | Some text =>
               list_collection_names d = (Raise (PyException text), d)
               /\ exists shown rest,
                    status = "⚠️  Connected but Error: " +:+ shown
                    /\ text = shown +:+ rest
                    /\ str_len shown = Nat.min 50 (str_len text)
                    /\ at_boundary rest
                    /\ ((forall i c, String.get i text = Some c ->
                                     (nat_of_ascii c < 128)%nat) ->
                        String.length shown
                        = Nat.min 50 (String.length text))
           end
       end.
Proof.
  destruct w as [[d|] env]; [destruct (fault d) as [t|] eqn:Hf|].
  - eexists _, ("⚠️  Connected but Error: " +:+ str_take 50 t).
    run_handler. rewrite Hf, (list_collection_names_fault d t Hf).
    cbv beta iota zeta delta [fst snd exn_str].
    split; [reflexivity|]. split; [reflexivity|].
    split; [by simplify_map_eq|]. split; [|split; [reflexivity|]].
    + constructor. rewrite str_take_len. apply Nat.le_min_l.
    + destruct (str_take_split 50 t) as (rest & Hrest & Hb).
      exists (str_take 50 t), rest.
      split; [reflexivity|]. split; [exact Hrest|].
      split; [apply str_take_len|]. split; [exact Hb|].
      apply str_take_ascii_length.
  - eexists _, "✅ Connected & Working".
    run_handler. rewrite Hf, (list_collection_names_healthy d Hf).
    cbv beta iota zeta delta [fst snd].
    split; [reflexivity|]. split; [reflexivity|].
    split; [by simplify_map_eq|]. split; [constructor|].
    split; [eauto | reflexivity].
  - eexists _, "⚠️  Available but not initialized".
    run_handler.
    split; [reflexivity|]. split; [reflexivity|].
    split; [by simplify_map_eq|]. split; [constructor|reflexivity].
Qed.

(** C10, as the code has it: in every answer of [GET /test] the fields
    [database_url] and [database_name] depend on the environment alone, not
    on the database handle: each reads "Set" when its variable is set to a
    non-empty string, and "Not Set" when the variable is unset or empty. *)
Theorem test_database_env_fields (w : World) :
  exists body,
    test_database w = (Return body, w)
    /\ body !! "database_url"
       = Some (VStr (if opt_str_truthy (environ w !! "DATABASE_URL")
                     then "✅ Set" else "❌ Not Set"))
    /\ body !! "database_name"
       = Some (VStr (if opt_str_truthy (environ w !! "DATABASE_NAME")
                     then "✅ Set" else "❌ Not Set")).
Proof.
  destruct w as [[d|] env]; [destruct (fault d) as [t|] eqn:Hf|].
  - eexists. run_handler. rewrite (list_collection_names_fault d t Hf).
    cbv beta iota zeta.
    split; [reflexivity|]. split; by simplify_map_eq.
  - eexists. run_handler. rewrite (list_collection_names_healthy d Hf).
    cbv beta iota zeta.
    split; [reflexivity|]. split; by simplify_map_eq.
  - eexists. run_handler.
    split; [reflexivity|]. split; by simplify_map_eq.
Qed.

(** C10 as stated fails: in [blank_env] both variables are set, to the
    empty string, and the answer reads "Not Set" for both; so two worlds
    in which the variable is set can answer differently. *)
Lemma test_database_blank_variable_not_set :
  environ Samples.blank_env !! "DATABASE_URL" = Some ""
  /\ environ Samples.blank_env !! "DATABASE_NAME" = Some ""
  /\ exists body,
       test_database Samples.blank_env = (Return body, Samples.blank_env)
       /\ body !! "database_url" = Some (VStr "❌ Not Set")
       /\ body !! "database_name" = Some (VStr "❌ Not Set").
Proof.
  split; [reflexivity|]. split; [reflexivity|].
  eexists. split; [reflexivity|]. split; reflexivity.
Qed.

(* ===================================================================== *)
(** ** The order invariant along every run *)
(* ===================================================================== *)

Lemma create_order_orders (order : Order) (w : World) :
  exists new,
    stored "order" (snd (create_order order w)) = stored "order" w ++ new
    /\ Forall (fun doc => order_doc_ok doc = true) new.
Proof.
  destruct w as [[d|] env]; [|exists []; run_handler; by rewrite app_nil_r].
  run_handler. rewrite order_gate.
  destruct (order_ok order) eqn:Hok; cbn [negb];
    [|exists []; by rewrite app_nil_r].
  destruct (fault d) as [t|] eqn:Hf.
  - rewrite (insert_one_fault _ _ _ _ Hf). exists []. by rewrite app_nil_r.
  - destruct (bson_refusal (<["_id" := VOid (next_oid d)]>
                              (Order_model_dump order))) as [t|] eqn:Hr.
    + rewrite (insert_one_refused _ _ _ _ Hf Hr). clear Hr. exists [].
      by rewrite app_nil_r.
    + rewrite (insert_one_healthy _ _ _ Hf Hr). clear Hr.
      exists [<["_id" := VOid (next_oid d)]> (Order_model_dump order)]. split.
      * unfold stored; simpl. by rewrite collection_store_eq.
      * constructor; [|constructor]. by rewrite order_doc_ok_dump.
Qed.

Lemma list_products_keeps_orders (py_repr : Value -> string) (w : World) :
  stored "order" (snd (list_products py_repr w)) = stored "order" w.
Proof.
  destruct w as [[d|] env]; [|reflexivity].
  run_handler. destruct (fault d) as [t|] eqn:Hf.
  - by rewrite (count_documents_fault _ _ _ Hf).
  - rewrite count_documents_healthy by done.
    destruct (collection "product" d) as [|x r] eqn:Hp;
      cbn [length Nat.eqb]; run_handler.
    + rewrite seed_validation.
      rewrite insert_many_healthy by (done || apply samples_accepted).
      run_handler.
      rewrite find_healthy by exact Hf. unfold stored; simpl.
      by rewrite collection_store_ne.
    + rewrite find_healthy by exact Hf. reflexivity.
Qed.

(** What one request adds to the order collection satisfies the rule. *)
Lemma step_orders (py_repr : Value -> string) (r : Request) (w : World) :
  exists new,
    stored "order" (step py_repr r w) = stored "order" w ++ new
    /\ Forall (fun doc => order_doc_ok doc = true) new.
Proof.
  destruct r as [| | |order|]; unfold step, handle; rewrite snd_bind_ret.
  - exists []. by rewrite app_nil_r.
  - exists []. by rewrite app_nil_r.
  - exists []. by rewrite list_products_keeps_orders, app_nil_r.
  - apply create_order_orders.
  - exists []. destruct (test_database_returns w) as [body ->].
    by rewrite app_nil_r.
Qed.

(** C5: along any sequence of requests, from any world, the order
    collection only grows, and every document the service adds to it has a
    non-empty item list whose quantities are all strictly positive: the
    only handler that writes an order tests the rule before it inserts. *)
Theorem persisted_orders_valid
    (py_repr : Value -> string) (rs : list Request) (w : World) :
  exists new,
    stored "order" (run py_repr rs w) = stored "order" w ++ new
    /\ Forall (fun doc => order_doc_ok doc = true) new.
Proof.
  revert w; induction rs as [|r rs IH]; intros w; simpl.
  - exists []. by rewrite app_nil_r.
  - destruct (step_orders py_repr r w) as (new1 & E1 & F1).
    destruct (IH (step py_repr r w)) as (new2 & E2 & F2).
    exists (new1 ++ new2). split.
    + by rewrite E2, E1, app_assoc.
    + by apply Forall_app.
Qed.

(* ===================================================================== *)
(** ** Beyond the contract: equations of seeding and listing *)
(* ===================================================================== *)

Lemma returned_inv {S A} (a b : A) (s s' : S) :
  (Return a, s) = (Return b, s') -> a = b /\ s = s'.
Proof. by intros [= -> ->]. Qed.

Lemma ensure_seed_fault (d : Database) (env : gmap string string) t :
  fault d = Some t ->
  _ensure_seed_products {| db := Some d; environ := env |}
  = (Raise (PyException t), {| db := Some d; environ := env |}).
Proof.
  intros Hf. run_handler. by rewrite (count_documents_fault _ _ _ Hf).
Qed.

Lemma ensure_seed_empty (d : Database) (env : gmap string string) :
  fault d = None -> collection "product" d = [] ->
  _ensure_seed_products {| db := Some d; environ := env |}
  = (Return tt,
     {| db := Some (store "product" sample_products d); environ := env |}).
Proof.
  intros Hf He. run_handler. rewrite count_documents_healthy, He by done.
  cbn [length Nat.eqb]. run_handler.
  rewrite seed_validation.
  by rewrite insert_many_healthy by (done || apply samples_accepted).
Qed.

Lemma ensure_seed_stocked (d : Database) (env : gmap string string) :
  fault d = None -> collection "product" d <> [] ->
  _ensure_seed_products {| db := Some d; environ := env |}
  = (Return tt, {| db := Some d; environ := env |}).
Proof.
  intros Hf He. run_handler. rewrite count_documents_healthy by done.
  destruct (collection "product" d); [done|]. reflexivity.
Qed.

Lemma list_products_after_seed (py_repr : Value -> string) (w : World) :
  list_products py_repr w
  = match db w with
    | None => (Return [fallback_product], w)
    | Some _ =>
        bind _ensure_seed_products
             (fun _ => bind (get_documents "product")
                            (fun docs => ret (map (_serialize py_repr) docs))) w
    end.
Proof. destruct w as [[d|] env]; reflexivity. Qed.

Lemma get_documents_healthy
    (c : string) (d : Database) (env : gmap string string) :
  fault d = None ->
  get_documents c {| db := Some d; environ := env |}
  = (Return (collection c d), {| db := Some d; environ := env |}).
Proof. intros Hf. run_handler. by rewrite find_healthy. Qed.

Lemma list_products_stocked
    (py_repr : Value -> string) (d : Database) (env : gmap string string) :
  fault d = None -> collection "product" d <> [] ->
  list_products py_repr {| db := Some d; environ := env |}
  = (Return (_serialize py_repr <$> collection "product" d),
     {| db := Some d; environ := env |}).
Proof.
  intros Hf He. rewrite list_products_after_seed. cbn [db].
  unfold bind at 1. rewrite ensure_seed_stocked by done.
  unfold bind. by rewrite get_documents_healthy.
Qed.

Lemma list_products_empty
    (py_repr : Value -> string) (d : Database) (env : gmap string string) :
  fault d = None -> collection "product" d = [] ->
  list_products py_repr {| db := Some d; environ := env |}
  = (Return (_serialize py_repr <$> assign_ids (next_oid d) sample_products),
     {| db := Some (store "product" sample_products d); environ := env |}).
Proof.
  intros Hf He. rewrite list_products_after_seed. cbn [db].
  unfold bind at 1. rewrite ensure_seed_empty by done.
  unfold bind. rewrite get_documents_healthy by exact Hf.
  by rewrite collection_store_eq, He.
Qed.

Lemma list_products_fault
    (py_repr : Value -> string) (d : Database) (env : gmap string string) t :
  fault d = Some t ->
  list_products py_repr {| db := Some d; environ := env |}
  = (Raise (PyException t), {| db := Some d; environ := env |}).
Proof.
  intros Hf. rewrite list_products_after_seed. cbn [db].
  unfold bind at 1. by rewrite (ensure_seed_fault d env t Hf).
Qed.

(** The world a listing leaves: the one it found, or that world with the
    samples stored in a product collection that was empty. *)
Lemma list_products_world (py_repr : Value -> string) (w : World) :
  snd (list_products py_repr w) = w
  \/ exists d, db w = Some d /\ fault d = None /\ collection "product" d = []
       /\ snd (list_products py_repr w)
          = {| db := Some (store "product" sample_products d);
               environ := environ w |}.
Proof.
  destruct w as [[d|] env]; [|by left].
  destruct (fault d) as [t|] eqn:Hf.
  - left. by rewrite (list_products_fault py_repr d env t Hf).
  - destruct (collection "product" d) as [|x r] eqn:Hp.
    + right. exists d. by rewrite (list_products_empty py_repr d env Hf Hp).
    + left. by rewrite list_products_stocked by (by rewrite ?Hp).
Qed.

(** The world an order request leaves: the one it found, or that world with
    the order stored. *)
Lemma create_order_world (order : Order) (w : World) :
  snd (create_order order w) = w
  \/ exists d, db w = Some d
       /\ snd (create_order order w)
          = {| db := Some (store "order" [Order_model_dump order] d);
               environ := environ w |}.
Proof.
  destruct w as [[d|] env]; [|by left].
  run_handler. rewrite order_gate.
  destruct (order_ok order); cbn [negb]; [|by left].
  destruct (fault d) as [t|] eqn:Hf.
  - left. by rewrite (insert_one_fault _ _ _ _ Hf).
  - destruct (bson_refusal (<["_id" := VOid (next_oid d)]>
                              (Order_model_dump order))) as [t|] eqn:Hr.
    + left. rewrite (insert_one_refused _ _ _ _ Hf Hr). reflexivity.
    + right. exists d. rewrite (insert_one_healthy _ _ _ Hf Hr). clear Hr.
      by split.
Qed.

Lemma assign_ids_nonempty (o : ObjectId) : assign_ids o sample_products <> [].
Proof. discriminate. Qed.

(* ===================================================================== *)
(** ** Serialization, further *)
(* ===================================================================== *)

Lemma serialize_no_storage_key (py_repr : Value -> string) (doc : Doc) :
  _serialize py_repr doc !! "_id" = None.
Proof.
  unfold _serialize. case_decide as He; [by subst|].
  destruct (doc !! "_id") as [v|] eqn:H; [|done].
  rewrite lookup_insert_ne by done. apply lookup_delete_eq.
Qed.

(** X1: whatever dictionary goes in, the serialized one has no [_id] key:
    the key is removed when present, and never introduced. *)
Theorem serialize_drops_storage_key
    (py_repr : Value -> string) (doc : Doc) :
  _serialize py_repr doc !! "_id" = None
  /\ "_id" ∉ dom (_serialize py_repr doc).
Proof.
  split; [apply serialize_no_storage_key|].
  apply not_elem_of_dom, serialize_no_storage_key.
Qed.

(** X2: serializing twice is serializing once. *)
Theorem serialize_idempotent (py_repr : Value -> string) (doc : Doc) :
  _serialize py_repr (_serialize py_repr doc) = _serialize py_repr doc.
Proof.
  pose proof (serialize_no_storage_key py_repr doc) as H.
  unfold _serialize at 1. case_decide; [done|]. by rewrite H.
Qed.

(** X3: serialization never adds a field.  The number of fields stays the
    same, except for a record that has both [_id] and [id]: there the two
    collapse into one and the count drops by one. *)
Theorem serialize_field_count (py_repr : Value -> string) (doc : Doc) :
  size (_serialize py_repr doc)
  = match doc !! "_id", doc !! "id" with
    | Some _, Some _ => pred (size doc)
    | _, _ => size doc
    end.
Proof.
  destruct (doc !! "_id") as [v|] eqn:Hid.
  - rewrite (serialize_with_id py_repr doc v Hid).
    destruct (doc !! "id") as [x|] eqn:Hx.
    + rewrite map_size_insert_Some
        by (rewrite lookup_delete_ne by done; by rewrite Hx).
      by rewrite map_size_delete_Some.
    + rewrite map_size_insert_None
        by (rewrite lookup_delete_ne by done; exact Hx).
      rewrite map_size_delete_Some by (by rewrite Hid).
      assert (size doc <> 0%nat); [|lia].
      intros E%map_size_empty_inv. subst doc. by rewrite lookup_empty in Hid.
  - unfold _serialize. case_decide; [done|]. by rewrite Hid.
Qed.

(* ===================================================================== *)
(** ** Listing products, further *)
(* ===================================================================== *)

(** X4: whenever [GET /api/products] returns, the list is not empty: the
    fallback without a database, the samples on an empty collection, the
    stored products otherwise. *)
Theorem list_products_never_empty
    (py_repr : Value -> string) (w w' : World) (l : list Doc) :
  list_products py_repr w = (Return l, w') -> l <> [].
Proof.
  destruct w as [[d|] env].
  - destruct (fault d) as [t|] eqn:Hf.
    + by rewrite (list_products_fault py_repr d env t Hf).
    + destruct (collection "product" d) as [|x r] eqn:Hp.
      * rewrite (list_products_empty py_repr d env Hf Hp).
        by intros [<- _]%returned_inv.
      * rewrite list_products_stocked by (by rewrite ?Hp). rewrite Hp.
        by intros [<- _]%returned_inv.
  - by intros [<- _]%returned_inv.
Qed.

Lemma list_products_never_empty_witness :
  list_products Samples.plain_repr Cases.stocked
  = (Return (_serialize Samples.plain_repr
             <$> collection "product" Cases.stocked_shop), Cases.stocked)
  /\ _serialize Samples.plain_repr <$> collection "product" Cases.stocked_shop
     <> [].
Proof.
  split; [reflexivity|].
  apply (list_products_never_empty Samples.plain_repr Cases.stocked
           Cases.stocked).
  reflexivity.
Defined.

(** X5: with a database, what the listing returns is the product
    collection as the call leaves it, serialized record by record in
    storage order; that collection extends the one the call found. *)
Theorem list_products_answers_stored
    (py_repr : Value -> string) (w w' : World) (d : Database) (l : list Doc) :
  db w = Some d ->
  list_products py_repr w = (Return l, w') ->
  l = _serialize py_repr <$> stored "product" w'
  /\ length l = length (stored "product" w')
  /\ exists new, stored "product" w' = stored "product" w ++ new.
Proof.
  intros Hdb. destruct w as [dbo env]; simpl in Hdb; subst dbo.
  destruct (fault d) as [t|] eqn:Hf.
  - by rewrite (list_products_fault py_repr d env t Hf).
  - destruct (collection "product" d) as [|x r] eqn:Hp.
    + rewrite (list_products_empty py_repr d env Hf Hp).
      intros [<- <-]%returned_inv.
      unfold stored; cbn [db]. rewrite collection_store_eq, Hp.
      rewrite length_fmap. eauto.
    + rewrite list_products_stocked by (by rewrite ?Hp).
      intros [<- <-]%returned_inv.
      unfold stored; cbn [db]. rewrite length_fmap. split; [done|].
      split; [done|]. exists []. by rewrite app_nil_r.
Qed.

Lemma list_products_answers_stored_witness :
  _serialize Samples.plain_repr
    <$> assign_ids (next_oid Samples.shop) sample_products
  = _serialize Samples.plain_repr <$> stored "product" Cases.seeded
  /\ length (_serialize Samples.plain_repr
             <$> assign_ids (next_oid Samples.shop) sample_products)
     = length (stored "product" Cases.seeded)
  /\ exists new,
       stored "product" Cases.seeded = stored "product" Samples.online ++ new.
Proof.
  apply (list_products_answers_stored Samples.plain_repr Samples.online
           Cases.seeded Samples.shop); reflexivity.
Defined.

(** X6: no record the listing returns has an [_id] key, whatever the
    collection holds. *)
Theorem list_products_hides_storage_key
    (py_repr : Value -> string) (w w' : World) (l : list Doc) :
  list_products py_repr w = (Return l, w') ->
  Forall (fun r => r !! "_id" = None) l.
Proof.
  destruct w as [[d|] env].
  - intros H.
    destruct (fault d) as [t|] eqn:Hf;
      [by rewrite (list_products_fault py_repr d env t Hf) in H|].
    assert (exists docs, l = _serialize py_repr <$> docs) as [docs ->].
    { destruct (collection "product" d) as [|x r] eqn:Hp.
      - rewrite (list_products_empty py_repr d env Hf Hp) in H.
        apply returned_inv in H as [<- _]. eauto.
      - rewrite list_products_stocked in H by (by rewrite ?Hp).
        apply returned_inv in H as [<- _]. eauto. }
    apply Forall_fmap, Forall_forall. intros doc _.
    apply serialize_no_storage_key.
  - intros [<- _]%returned_inv. by repeat constructor.
Qed.

Lemma list_products_hides_storage_key_witness :
  Cases.tee !! "_id" = Some (VOid 7%N)
  /\ Forall (fun r => r !! "_id" = None)
       (_serialize Samples.plain_repr <$> collection "product" Cases.stocked_shop).
Proof.
  split; [reflexivity|].
  apply (list_products_hides_storage_key Samples.plain_repr Cases.stocked
           Cases.stocked).
  reflexivity.
Defined.

(** X7: when the store answers and holds at least one product, the listing
    seeds nothing: it returns the stored products, serialized, and leaves
    the world as it found it. *)
Theorem list_products_read_only_when_stocked
    (py_repr : Value -> string) (w : World) (d : Database) :
  db w = Some d -> fault d = None -> collection "product" d <> [] ->
  list_products py_repr w
  = (Return (_serialize py_repr <$> collection "product" d), w).
Proof.
  intros Hdb Hf Hp. destruct w as [dbo env]; simpl in Hdb; subst dbo.
  by apply list_products_stocked.
Qed.

Lemma list_products_read_only_when_stocked_witness :
  list_products Samples.plain_repr Cases.stocked
  = (Return (_serialize Samples.plain_repr
             <$> collection "product" Cases.stocked_shop), Cases.stocked).
Proof.
  apply (list_products_read_only_when_stocked Samples.plain_repr
           Cases.stocked Cases.stocked_shop);
    [reflexivity | reflexivity | discriminate].
Defined.

(** X8: the listing catches nothing.  With a handle whose server cannot be
    reached, the error of the first round-trip (the count) leaves the
    handler as it is raised: the answer is a 500, not the fallback, and
    nothing is seeded. *)
Theorem list_products_store_error
    (py_repr : Value -> string) (w : World) (d : Database) (t : string) :
  db w = Some d -> fault d = Some t ->
  list_products py_repr w = (Raise (PyException t), w)
  /\ http_status (fst (list_products py_repr w)) = 500.
Proof.
  intros Hdb Hf. destruct w as [dbo env]; simpl in Hdb; subst dbo.
  by rewrite (list_products_fault py_repr d env t Hf).
Qed.

Lemma list_products_store_error_witness :
  list_products Samples.plain_repr Cases.down
  = (Raise (PyException "connection refused"), Cases.down)
  /\ http_status (fst (list_products Samples.plain_repr Cases.down)) = 500.
Proof.
  apply (list_products_store_error Samples.plain_repr Cases.down
           Cases.down_shop "connection refused"); reflexivity.
Defined.

(** X9: the listing writes to the product collection only: every other
    collection is after the call what it was before. *)
Theorem list_products_touches_only_products
    (py_repr : Value -> string) (w : World) (c : string) :
  c <> "product" ->
  stored c (snd (list_products py_repr w)) = stored c w.
Proof.
  intros Hc.
  destruct (list_products_world py_repr w) as [->|(d & Hdb & _ & _ & ->)];
    [done|].
  unfold stored; cbn [db]. rewrite Hdb. by apply collection_store_ne.
Qed.

Lemma list_products_touches_only_products_witness :
  stored "order" (snd (list_products Samples.plain_repr Samples.online))
  = stored "order" Samples.online.
Proof.
  apply (list_products_touches_only_products Samples.plain_repr
           Samples.online "order"). discriminate.
Defined.

(** X10: when the seeding step returns on a world with a database, the
    product collection is not empty afterwards, and what was stored before
    is still there, in front. *)
Theorem ensure_seed_postcondition (w : World) (d : Database) :
  db w = Some d ->
  fst (_ensure_seed_products w) = Return tt ->
  stored "product" (snd (_ensure_seed_products w)) <> []
  /\ exists new,
       stored "product" (snd (_ensure_seed_products w))
       = stored "product" w ++ new.
Proof.
  intros Hdb. destruct w as [dbo env]; simpl in Hdb; subst dbo.
  destruct (fault d) as [t|] eqn:Hf.
  - by rewrite (ensure_seed_fault d env t Hf).
  - destruct (collection "product" d) as [|x r] eqn:Hp.
    + rewrite (ensure_seed_empty d env Hf Hp). intros _.
      unfold stored; cbn [db snd]. rewrite collection_store_eq, Hp.
      split; [apply assign_ids_nonempty | eauto].
    + rewrite ensure_seed_stocked by (by rewrite ?Hp). intros _.
      unfold stored; cbn [db snd]. rewrite Hp. split; [done|].
      exists []. by rewrite app_nil_r.
Qed.

Lemma ensure_seed_postcondition_witness :
  stored "product" (snd (_ensure_seed_products Samples.online)) <> []
  /\ exists new,
       stored "product" (snd (_ensure_seed_products Samples.online))
       = stored "product" Samples.online ++ new.
Proof.
  apply (ensure_seed_postcondition Samples.online Samples.shop); reflexivity.
Defined.

Lemma step_products (py_repr : Value -> string) (r : Request) (w : World) :
  stored "product" (step py_repr r w) = stored "product" w
  \/ (stored "product" w = []
      /\ exists o, stored "product" (step py_repr r w)
                   = assign_ids o sample_products).
Proof.
  destruct r as [| | |order|]; unfold step, handle; rewrite snd_bind_ret.
  - by left.
  - by left.
  - destruct (list_products_world py_repr w)
      as [->|(d & Hdb & _ & Hp & ->)]; [by left|].
    right. unfold stored; cbn [db]. rewrite Hdb, collection_store_eq, Hp.
    eauto.
  - left. destruct (create_order_world order w) as [->|(d & Hdb & ->)];
      [done|].
    unfold stored; cbn [db]. rewrite Hdb. by apply collection_store_ne.
  - left. by destruct (test_database_returns w) as [body ->].
Qed.

(** X11: along any sequence of requests the samples are inserted at most
    once, and only into a product collection that was empty: at the end
    the collection is what it was at the start, or it was empty at the
    start and now holds exactly the four samples. *)
Theorem seeding_at_most_once
    (py_repr : Value -> string) (rs : list Request) (w : World) :
  stored "product" (run py_repr rs w) = stored "product" w
  \/ (stored "product" w = []
      /\ exists o, stored "product" (run py_repr rs w)
                   = assign_ids o sample_products).
Proof.
  revert w; induction rs as [|r rs IH]; intros w; cbn [run]; [by left|].
  destruct (step_products py_repr r w) as [E|(He & o & E)].
  - rewrite <- E. apply IH.
  - destruct (IH (step py_repr r w)) as [E'|(He' & _)].
    + right. split; [done|]. exists o. by rewrite E'.
    + rewrite E in He'. by apply assign_ids_nonempty in He'.
Qed.

(* ===================================================================== *)
(** ** Orders, further *)
(* ===================================================================== *)

(** X12: an order request writes to the order collection only: every
    other collection, the products among them, is after the call what it
    was before. *)
Theorem create_order_touches_only_orders
    (order : Order) (w : World) (c : string) :
  c <> "order" ->
  stored c (snd (create_order order w)) = stored c w.
Proof.
  intros Hc. destruct (create_order_world order w) as [->|(d & Hdb & ->)];
    [done|].
  unfold stored; cbn [db]. rewrite Hdb. by apply collection_store_ne.
Qed.

Lemma create_order_touches_only_orders_witness :
  stored "product" (snd (create_order Samples.two_tees Cases.stocked))
  = stored "product" Cases.stocked.
Proof.
  apply (create_order_touches_only_orders Samples.two_tees Cases.stocked
           "product"). discriminate.
Defined.

(** X13: the order handler catches nothing either.  For an order that
    passes the item test, an error of the insert leaves the handler as it
    is raised: the answer is a 500 and nothing is stored. *)
Theorem create_order_store_error
    (order : Order) (w : World) (d : Database) (t : string) :
  db w = Some d -> fault d = Some t ->
  items order <> [] -> (forall i, i ∈ items order -> 0 < quantity i) ->
  create_order order w = (Raise (PyException t), w)
  /\ http_status (fst (create_order order w)) = 500.
Proof.
  intros Hdb Hf Hne Hq. destruct w as [dbo env]; simpl in Hdb; subst dbo.
  assert (E : create_order order {| db := Some d; environ := env |}
              = (Raise (PyException t), {| db := Some d; environ := env |})).
  { run_handler. rewrite order_gate, (order_ok_true order Hne Hq).
    cbn [negb]. by rewrite (insert_one_fault _ _ _ _ Hf). }
  by rewrite E.
Qed.

Lemma create_order_store_error_witness :
  create_order Samples.two_tees Cases.down
  = (Raise (PyException "connection refused"), Cases.down)
  /\ http_status (fst (create_order Samples.two_tees Cases.down)) = 500.
Proof.
  apply (create_order_store_error Samples.two_tees Cases.down Cases.down_shop
           "connection refused").
  - reflexivity.
  - reflexivity.
  - discriminate.
  - intros i Hi. apply list_elem_of_singleton in Hi. subst i. simpl. lia.
Defined.

Lemma create_order_status (order : Order) (w : World) :
  http_status (fst (create_order order w))
  = match db w with
    | None => 503
    | Some d =>
        if order_ok order
        then match fault d with
             | Some _ => 500
             | None =>
                 match bson_refusal (<["_id" := VOid (next_oid d)]>
                                       (Order_model_dump order)) with
                 | Some _ => 500
                 | None => 200
                 end
             end
        else 400
    end.
Proof.
  destruct w as [[d|] env]; [|reflexivity].
  run_handler. rewrite order_gate.
  destruct (order_ok order); cbn [negb]; [|reflexivity].
  destruct (fault d) as [t|] eqn:Hf.
  - by rewrite (insert_one_fault _ _ _ _ Hf).
  - destruct (bson_refusal (<["_id" := VOid (next_oid d)]>
                              (Order_model_dump order))) as [t|] eqn:Hr.
    + rewrite (insert_one_refused _ _ _ _ Hf Hr). reflexivity.
    + rewrite (insert_one_healthy _ _ _ Hf Hr). reflexivity.
Qed.

Lemma order_ok_spec (order : Order) :
  order_ok order = false
  <-> items order = [] \/ exists i, i ∈ items order /\ quantity i <= 0.
Proof.
  split; [|apply order_ok_false].
  unfold order_ok. destruct (items order) as [|i l] eqn:E; [by left|].
  intros H. right. cbn [andb] in H.
  apply not_true_iff_false in H.
  destruct (decide (Exists (fun j => quantity j <= 0) (i :: l))) as [Hex|Hn].
  - apply Exists_exists in Hex as (j & Hj & Hq). eauto.
  - exfalso. apply H, forallb_forall. intros j Hj%list_elem_of_In.
    apply Z.ltb_lt. destruct (decide (quantity j <= 0)); [|lia].
    exfalso. apply Hn, Exists_exists. eauto.
Qed.

(** X14: the two client-visible refusals of [POST /api/orders] have exact
    causes.  The answer is a 503 exactly when there is no database handle,
    and a 400 exactly when there is one and the order has no item or an
    item whose quantity is at most zero; the state of the store plays no
    part in either. *)
Theorem create_order_status_iff (order : Order) (w : World) :
  (http_status (fst (create_order order w)) = 503 <-> db w = None)
  /\ (http_status (fst (create_order order w)) = 400
      <-> db w <> None
          /\ (items order = []
              \/ exists i, i ∈ items order /\ quantity i <= 0)).
Proof.
  rewrite create_order_status, <- order_ok_spec.
  destruct (db w) as [d|]; destruct (order_ok order);
    try destruct (fault d); try destruct (bson_refusal _);
    split; split; try done; try lia; intros []; try done.
Qed.

(* ===================================================================== *)
(** ** Diagnostics, further *)
(* ===================================================================== *)

(** X15: the answer of [GET /test] always has the same six keys, whatever
    branch the handler took. *)
Theorem test_database_keys (w : World) :
  exists body,
    test_database w = (Return body, w)
    /\ dom body
       = {["backend"; "database"; "database_url"; "database_name";
           "connection_status"; "collections"]}.
Proof.
  destruct w as [[d|] env]; [destruct (fault d) as [t|] eqn:Hf|].
  - eexists. run_handler. rewrite (list_collection_names_fault d t Hf).
    cbv beta iota zeta. split; [reflexivity|].
    rewrite !dom_insert_L, dom_list_to_map_L. set_solver.
  - eexists. run_handler. rewrite (list_collection_names_healthy d Hf).
    cbv beta iota zeta. split; [reflexivity|].
    rewrite !dom_insert_L, dom_list_to_map_L. set_solver.
  - eexists. run_handler. split; [reflexivity|].
    rewrite !dom_insert_L, dom_list_to_map_L. set_solver.
Qed.

(** X16: the [collections] field lists at most ten names: the first ten
    the driver returned, and none when there is no handle or when listing
    raised. *)
Theorem test_database_collections_bounded (w : World) :
  exists body names,
    test_database w = (Return body, w)
    /\ body !! "collections" = Some (VList (VStr <$> names))
    /\ (length names <= 10)%nat
    /\ match db w with
       | None => names = []
       | Some d =>
           match fst (list_collection_names d) with
           | Return all => names = take 10 all
           | Raise _ => names = []
           end
       end.
Proof.
  destruct w as [[d|] env]; [destruct (fault d) as [t|] eqn:Hf|].
  - eexists _, []. run_handler. rewrite (list_collection_names_fault d t Hf).
    cbv beta iota zeta delta [fst].
    split; [reflexivity|]. split; [by simplify_map_eq|].
    split; [simpl; lia | reflexivity].
  - eexists _, (take 10 (elements (dom (collections d)))).
    run_handler. rewrite (list_collection_names_healthy d Hf).
    cbv beta iota zeta delta [fst].
    split; [reflexivity|]. split; [by simplify_map_eq|].
    split; [rewrite length_take; lia | reflexivity].
  - eexists _, []. run_handler.
    split; [reflexivity|]. split; [by simplify_map_eq|].
    split; [simpl; lia | reflexivity].
Qed.

(** X17: [connection_status] tells only whether a handle exists: it reads
    "Connected" as soon as there is one, also when listing the collections
    raised, and "Not Connected" otherwise; [backend] always reads
    "Running". *)
Theorem test_database_connection_status (w : World) :
  exists body,
    test_database w = (Return body, w)
    /\ body !! "connection_status"
       = Some (VStr (match db w with
                     | Some _ => "Connected"
                     | None => "Not Connected"
                     end))
    /\ body !! "backend" = Some (VStr "✅ Running").
Proof.
  destruct w as [[d|] env]; [destruct (fault d) as [t|] eqn:Hf|].
  - eexists. run_handler. rewrite (list_collection_names_fault d t Hf).
    cbv beta iota zeta. split; [reflexivity|]. split; by simplify_map_eq.
  - eexists. run_handler. rewrite (list_collection_names_healthy d Hf).
    cbv beta iota zeta. split; [reflexivity|]. split; by simplify_map_eq.
  - eexists. run_handler. split; [reflexivity|]. split; by simplify_map_eq.
Qed.



(* ===================================================================== *)
(** ** A process without a database *)
(* ===================================================================== *)

Lemma step_offline (py_repr : Value -> string) (r : Request) (w : World) :
  db w = None -> step py_repr r w = w.
Proof.
  intros Hdb. destruct w as [dbo env]; simpl in Hdb; subst dbo.
  destruct r as [| | |order|]; unfold step, handle; rewrite snd_bind_ret;
    reflexivity.
Qed.

(** X19: no handler ever assigns the handle.  A process started without a
    database stays as it is through any sequence of requests: afterwards
    every order is still answered 503 and the listing still returns the
    fallback record. *)
Theorem degraded_forever
    (py_repr : Value -> string) (rs : list Request) (w : World)
    (order : Order) :
  db w = None ->
  run py_repr rs w = w
  /\ http_status (fst (create_order order (run py_repr rs w))) = 503
  /\ fst (list_products py_repr (run py_repr rs w)) = Return [fallback_product].
Proof.
  intros Hdb.
  assert (E : run py_repr rs w = w).
  { induction rs as [|r rs IH]; [done|].
    cbn [run]. by rewrite (step_offline py_repr r w Hdb). }
  rewrite E. destruct w as [dbo env]; simpl in Hdb; subst dbo. done.
Qed.

Lemma degraded_forever_witness :
  run Samples.plain_repr [GetProducts; PostOrder Samples.two_tees; GetTest]
      Samples.offline = Samples.offline
  /\ http_status
       (fst (create_order Samples.two_tees
               (run Samples.plain_repr
                    [GetProducts; PostOrder Samples.two_tees; GetTest]
                    Samples.offline))) = 503
  /\ fst (list_products Samples.plain_repr
            (run Samples.plain_repr
                 [GetProducts; PostOrder Samples.two_tees; GetTest]
                 Samples.offline))
     = Return [fallback_product].
Proof.
  apply (degraded_forever Samples.plain_repr
           [GetProducts; PostOrder Samples.two_tees; GetTest]
           Samples.offline Samples.two_tees).
  reflexivity.
Defined.
